(** * BRACE: the dual-head actor-critic network of [brace/policy.py]

    A shallow embedding of [DualHeadActorCritic] and of the PyTorch
    layers it is assembled from ([nn.Linear], [nn.ReLU],
    [nn.Sequential], [torch.sigmoid]), followed by the properties of its
    [forward] method.

    Modelling choices.
    - A two-dimensional tensor is its list of rows together with its
      number of columns; the number of columns is stored because a tensor
      of shape (0, n) has no row to read it from.
    - The input of [forward] is a batch of shape (B, obs_dim), as its
      docstring has it; inputs of other ranks are outside the model.
    - A tensor carries no dtype and no device: every tensor of the model
      has the dtype and the device of the parameters, as the forward
      contract requires.  The errors of a dtype or device mismatch are
      outside the model, and so is the [device] argument of [__init__].
    - A failing PyTorch call raises an exception; here it is a [Raise]
      result.  The network object [self] is mutable in Python; [forward]
      is therefore a computation in a state-and-exception monad whose
      state is the network, and the state survives an exception.
    - Arithmetic.  In [Torch] the entries are real numbers and the layers
      compute exactly: that settles what does not depend on rounding
      (which layers are composed, shapes, errors, what is read and
      written).  Rounding, overflow, infinities and NaN of float32 are
      outside [Torch].  Where the arithmetic of the code decides, the
      forward pass is taken over the tensor library as a parameter
      ([Lib]), with the exact arithmetic and a float32 arithmetic as two
      libraries. *)

From Stdlib Require Import List Arith PeanoNat ZArith Lia Reals Lra SpecFloat.
Import ListNotations.

Local Open Scope R_scope.

(** ** Results of calls that may raise *)

Inductive error : Type :=
| ShapeError.   (* RuntimeError: mat1 and mat2 shapes cannot be multiplied *)

Inductive result (A : Type) : Type :=
| Ok (a : A)
| Raise (e : error).

Arguments Ok {A} a.
Arguments Raise {A} e.

Definition result_bind {A B : Type} (r : result A) (k : A -> result B)
  : result B :=
  match r with
  | Ok a => k a
  | Raise e => Raise e
  end.

Definition result_map {A B : Type} (f : A -> B) (r : result A) : result B :=
  result_bind r (fun a => Ok (f a)).

(** ** Tensors and the PyTorch layers *)

Module Torch.

(** A tensor of shape (rows, cols). *)
Record tensor : Type := mkTensor {
  cols : nat;
  data : list (list R)
}.

Definition rows (t : tensor) : nat := length (data t).

Definition shape (t : tensor) : nat * nat := (rows t, cols t).

(** Every row has [cols] entries; PyTorch tensors always satisfy it. *)
Definition wf_tensor (t : tensor) : Prop :=
  Forall (fun r => length r = cols t) (data t).

(** Elementwise application of a scalar function. *)
Definition tmap (f : R -> R) (t : tensor) : tensor :=
  {| cols := cols t; data := map (map f) (data t) |}.

(** *** Activations *)

(** [nn.ReLU]: max(0, x). *)
Definition relu (x : R) : R := Rmax 0 x.

(** [torch.sigmoid]: 1 / (1 + exp(-x)). *)
Definition sigmoid (x : R) : R := 1 / (1 + exp (- x)).

(** *** [nn.Linear] *)

(** Parameters of a linear layer: [weight] of shape
    (out_features, in_features) and [bias] of length out_features. *)
Record Linear : Type := mkLinear {
  weight : tensor;
  bias : list R
}.

Definition in_features (l : Linear) : nat := cols (weight l).
Definition out_features (l : Linear) : nat := rows (weight l).

(** The invariant [nn.Linear(i, o)] establishes and that updates of the
    parameter values keep. *)
Definition wf_linear (i o : nat) (l : Linear) : Prop :=
  wf_tensor (weight l) /\ in_features l = i /\ out_features l = o
  /\ length (bias l) = o.

(** Inner product of an input row with a weight row. *)
Fixpoint dot (x w : list R) : R :=
  match x, w with
  | a :: x', b :: w' => a * b + dot x' w'
  | _, _ => 0
  end.

(** One output row: x W^T + b. *)
Definition affine_row (l : Linear) (x : list R) : list R :=
  map (fun wb => dot x (fst wb) + snd wb) (combine (data (weight l)) (bias l)).

(** The product of a batch, row by row; its shape is
    (rows of the input, out_features). *)
Definition linear_out (l : Linear) (x : tensor) : tensor :=
  {| cols := out_features l; data := map (affine_row l) (data x) |}.

(** [nn.Linear.forward], that is [F.linear(input, weight, bias)]: the
    matrix product checks the last dimension of the input against
    [in_features] and raises on a mismatch, whatever the number of rows. *)
Definition linear_forward (l : Linear) (x : tensor) : result tensor :=
  if Nat.eqb (cols x) (in_features l)
  then Ok (linear_out l x)
  else Raise ShapeError.

(** [nn.Linear(i, o)]: a fresh layer.  The initial values come from the
    framework's random initialisation; they are arguments here. *)
Definition new_Linear (i o : nat) (w : nat -> nat -> R) (b : nat -> R)
  : Linear :=
  {| weight := {| cols := i;
                  data := map (fun j => map (w j) (seq 0 i)) (seq 0 o) |};
     bias := map b (seq 0 o) |}.

(** *** Modules and [nn.Sequential] *)

Inductive Module_ : Type :=
| MLinear (l : Linear)
| MReLU.

(** [module(input)]. *)
Definition call (m : Module_) (x : tensor) : result tensor :=
  match m with
  | MLinear l => linear_forward l x
  | MReLU => Ok (tmap relu x)
  end.

(** [nn.Sequential.forward]:
    [for module in self: input = module(input); return input]. *)
Fixpoint sequential_forward (ms : list Module_) (x : tensor)
  : result tensor :=
  match ms with
  | [] => Ok x
  | m :: ms' => result_bind (call m x) (sequential_forward ms')
  end.

End Torch.

Import Torch.

(** ** The network object *)

Record DualHeadActorCritic : Type := mkNet {
  backbone : list Module_;
  gamma_head : Linear;
  value_head : Linear
}.

(** ** Computations on [self] *)

Definition M (A : Type) : Type :=
  DualHeadActorCritic -> result A * DualHeadActorCritic.

Definition ret {A : Type} (a : A) : M A := fun self => (Ok a, self).

Definition bind {A B : Type} (c : M A) (k : A -> M B) : M B :=
  fun self =>
    match c self with
    | (Ok a, self') => k a self'
    | (Raise e, self') => (Raise e, self')
    end.

(** Reading an attribute of [self]. *)
Definition getattr {A : Type} (f : DualHeadActorCritic -> A) : M A :=
  fun self => (Ok (f self), self).

(** Assigning the attributes of [self]: what an optimizer step or
    [load_state_dict] does.  [forward] never uses it. *)
Definition setattr (new : DualHeadActorCritic) : M unit :=
  fun _ => (Ok tt, new).

(** A call into the tensor library: it may raise, it does not touch [self]. *)
Definition lift {A : Type} (r : result A) : M A := fun self => (r, self).

Declare Scope net_scope.
Delimit Scope net_scope with net.
Notation "x <- c ;; k" := (bind c (fun x => k))
  (at level 61, c at next level, right associativity) : net_scope.

(** ** [DualHeadActorCritic.__init__] *)

(** Initial values of the four linear layers, as drawn by the framework. *)
Record init_values : Type := mkInit {
  w1 : nat -> nat -> R;  b1 : nat -> R;
  w2 : nat -> nat -> R;  b2 : nat -> R;
  wg : nat -> nat -> R;  bg : nat -> R;
  wv : nat -> nat -> R;  bv : nat -> R
}.

(** [self.to(device)] moves the parameters and leaves their values. *)
Definition init (obs_dim hidden : nat) (v : init_values)
  : DualHeadActorCritic :=
  {| backbone :=
       [ MLinear (new_Linear obs_dim hidden (w1 v) (b1 v)); MReLU;
         MLinear (new_Linear hidden hidden (w2 v) (b2 v)); MReLU ];
     gamma_head := new_Linear hidden 1 (wg v) (bg v);
     value_head := new_Linear hidden 1 (wv v) (bv v) |}.

(** The invariant of a network built by [init obs_dim hidden]: the
    modules and their shapes are fixed, the parameter values are free. *)
Definition wf_net (obs_dim hidden : nat) (n : DualHeadActorCritic) : Prop :=
  exists l1 l2,
    backbone n = [MLinear l1; MReLU; MLinear l2; MReLU]
    /\ wf_linear obs_dim hidden l1
    /\ wf_linear hidden hidden l2
    /\ wf_linear hidden 1 (gamma_head n)
    /\ wf_linear hidden 1 (value_head n).

(** ** [DualHeadActorCritic.forward] *)

Definition forward (obs : tensor) : M (tensor * tensor) :=
  (b <- getattr backbone ;;
   z <- lift (sequential_forward b obs) ;;
   gh <- getattr gamma_head ;;
   g <- lift (linear_forward gh z) ;;
   let gamma := tmap sigmoid g in
   vh <- getattr value_head ;;
   value <- lift (linear_forward vh z) ;;
   ret (gamma, value))%net.

(** The returned pair of a call, and the network after it. *)
Definition returned {A : Type} (c : M A) (self : DualHeadActorCritic)
  : result A := fst (c self).

Definition after {A : Type} (c : M A) (self : DualHeadActorCritic)
  : DualHeadActorCritic := snd (c self).

(** ** The reference composition

    The forward pass as the specification words it, layer by layer, with
    each layer given entry by entry in the textbook form: a linear layer
    is y[i][j] = sum over k of x[i][k] * W[j][k], plus b[j]. *)

Module Reference.

Definition entry (t : tensor) (i j : nat) : R :=
  nth j (nth i (data t) []) 0.

Definition sum_upto (n : nat) (f : nat -> R) : R :=
  fold_right Rplus 0 (map f (seq 0 n)).

Definition tabulate (r c : nat) (f : nat -> nat -> R) : tensor :=
  {| cols := c; data := map (fun i => map (f i) (seq 0 c)) (seq 0 r) |}.

Definition linear_layer (l : Linear) (x : tensor) : tensor :=
  tabulate (rows x) (out_features l)
    (fun i j =>
       sum_upto (in_features l)
                (fun k => entry x i k * entry (weight l) j k)
       + nth j (bias l) 0).

Definition elementwise (f : R -> R) (x : tensor) : tensor :=
  tabulate (rows x) (cols x) (fun i j => f (entry x i j)).

Definition rectified_linear (x : tensor) : tensor :=
  elementwise (fun v => if Rle_dec v 0 then 0 else v) x.

Definition logistic (v : R) : R := / (1 + exp (- v)).

(** Shared hidden representation z. *)
Definition hidden_representation (l1 l2 : Linear) (obs : tensor) : tensor :=
  rectified_linear
    (linear_layer l2 (rectified_linear (linear_layer l1 obs))).

Definition forward_reference (l1 l2 lg lv : Linear) (obs : tensor)
  : tensor * tensor :=
  let z := hidden_representation l1 l2 obs in
  (elementwise logistic (linear_layer lg z), linear_layer lv z).

End Reference.

(** ** Auxiliary definitions used in the statements *)

(** What [forward] computes on one row of the batch. *)
Definition hidden_row (l1 l2 : Linear) (x : list R) : list R :=
  map relu (affine_row l2 (map relu (affine_row l1 x))).

Definition gamma_row (l1 l2 lg : Linear) (x : list R) : list R :=
  map sigmoid (affine_row lg (hidden_row l1 l2 x)).

Definition value_row (l1 l2 lv : Linear) (x : list R) : list R :=
  affine_row lv (hidden_row l1 l2 x).

(** All entries of the weight matrix are zero. *)
Definition zero_weight (l : Linear) : Prop :=
  Forall (Forall (fun w => w = 0)) (data (weight l)).

Definition zero_weights (n : DualHeadActorCritic) : Prop :=
  (forall l, In (MLinear l) (backbone n) -> zero_weight l)
  /\ zero_weight (gamma_head n) /\ zero_weight (value_head n).

(** Zeroing the weight of a layer in place, keeping its bias. *)
Definition zero_Linear (l : Linear) : Linear :=
  {| weight := tmap (fun _ => 0) (weight l); bias := bias l |}.

Definition zero_Module (m : Module_) : Module_ :=
  match m with
  | MLinear l => MLinear (zero_Linear l)
  | MReLU => MReLU
  end.

Definition zero_all_weights (n : DualHeadActorCritic) : DualHeadActorCritic :=
  {| backbone := map zero_Module (backbone n);
     gamma_head := zero_Linear (gamma_head n);
     value_head := zero_Linear (value_head n) |}.

(** A concrete network and batch for the examples: obs_dim = 2,
    hidden = 3, every initial weight j + k + 1 and bias j - 1. *)
Definition sample_values : init_values :=
  let w := fun j k : nat => INR (j + k + 1) in
  let b := fun j : nat => INR j - 1 in
  mkInit w b w b w b w b.

Definition sample_net : DualHeadActorCritic := init 2 3 sample_values.

Definition sample_obs : tensor :=
  {| cols := 2; data := [[1; -2]; [0; 3]; [-1; -1]] |}.

(** A network with obs_dim = 1 and hidden = 1 whose forward pass can be
    followed by hand. *)
Definition tiny_net : DualHeadActorCritic :=
  {| backbone :=
       [ MLinear {| weight := {| cols := 1; data := [[2]] |}; bias := [1] |};
         MReLU;
         MLinear {| weight := {| cols := 1; data := [[-1]] |}; bias := [3] |};
         MReLU ];
     gamma_head := {| weight := {| cols := 1; data := [[1]] |}; bias := [0] |};
     value_head := {| weight := {| cols := 1; data := [[2]] |}; bias := [1] |}
  |}.

(** ** Definitions for the further properties *)

(** Every entry of the tensor satisfies [P]. *)
Definition all_entries (P : R -> Prop) (t : tensor) : Prop :=
  Forall (Forall P) (data t).

(** * The forward pass over the arithmetic of the tensor library

    The layers of [Torch] compute in exact arithmetic.  The code
    computes with what the tensor library provides: entries of its dtype
    (float32 by default), a matrix-product kernel that the library picks
    for each call, its ReLU and its sigmoid.  [policy.py] has the calls
    and nothing of the kernels, so the library is a parameter here, and
    [Lib.forward] is the same forward pass written over it. *)

Record library : Type := mkLibrary {
  dtype : Type;
  (** [linear_entry B i j x w b]: entry (i, j) of [F.linear] on a batch
      of [B] rows, computed from row [i] of the input, row [j] of the
      weight and entry [j] of the bias.  The kernel may accumulate the
      products in an order that depends on the shape of the batch and on
      the position of the entry. *)
  linear_entry :
    nat -> nat -> nat -> list dtype -> list dtype -> dtype -> dtype;
  relu_entry : dtype -> dtype;
  sigmoid_entry : dtype -> dtype
}.

(** [map] with the position of each element, counted from [s]. *)
Fixpoint mapi_from {A B : Type} (s : nat) (f : nat -> A -> B) (l : list A)
  : list B :=
  match l with
  | [] => []
  | a :: l' => f s a :: mapi_from (S s) f l'
  end.

Definition mapi {A B : Type} (f : nat -> A -> B) (l : list A) : list B :=
  mapi_from 0 f l.

Module Lib.
Section Library.

Variable L : library.

Record tensor : Type := mkTensor {
  cols : nat;
  data : list (list (dtype L))
}.

Definition rows (t : tensor) : nat := length (data t).

Definition tmap (f : dtype L -> dtype L) (t : tensor) : tensor :=
  {| cols := cols t; data := map (map f) (data t) |}.

(** The row [x] of [t] as a batch of its own, of shape (1, cols). *)
Definition row_batch (t : tensor) (x : list (dtype L)) : tensor :=
  {| cols := cols t; data := [x] |}.

Record Linear : Type := mkLinear {
  weight : tensor;
  bias : list (dtype L)
}.

Definition wf_linear (i o : nat) (l : Linear) : Prop :=
  Forall (fun r => length r = i) (data (weight l))
  /\ cols (weight l) = i /\ rows (weight l) = o /\ length (bias l) = o.

(** Row [i] of the output of a linear layer on a batch of [B] rows. *)
Definition linear_row (l : Linear) (B i : nat) (x : list (dtype L))
  : list (dtype L) :=
  mapi (fun j wb => linear_entry L B i j x (fst wb) (snd wb))
       (combine (data (weight l)) (bias l)).

Definition linear_out (l : Linear) (x : tensor) : tensor :=
  {| cols := rows (weight l);
     data := mapi (linear_row l (rows x)) (data x) |}.

Definition linear_forward (l : Linear) (x : tensor) : result tensor :=
  if Nat.eqb (cols x) (cols (weight l))
  then Ok (linear_out l x)
  else Raise ShapeError.

Inductive Module_ : Type :=
| MLinear (l : Linear)
| MReLU.

Definition call (m : Module_) (x : tensor) : result tensor :=
  match m with
  | MLinear l => linear_forward l x
  | MReLU => Ok (tmap (relu_entry L) x)
  end.

Fixpoint sequential_forward (ms : list Module_) (x : tensor)
  : result tensor :=
  match ms with
  | [] => Ok x
  | m :: ms' => result_bind (call m x) (sequential_forward ms')
  end.

Record Net : Type := mkNet {
  backbone : list Module_;
  gamma_head : Linear;
  value_head : Linear
}.

Definition wf_net (obs_dim hidden : nat) (n : Net) : Prop :=
  exists l1 l2,
    backbone n = [MLinear l1; MReLU; MLinear l2; MReLU]
    /\ wf_linear obs_dim hidden l1
    /\ wf_linear hidden hidden l2
    /\ wf_linear hidden 1 (gamma_head n)
    /\ wf_linear hidden 1 (value_head n).

(** [nn.Linear(i, o)] and [DualHeadActorCritic.__init__], with the
    initial values as arguments. *)
Definition new_Linear (i o : nat)
           (w : nat -> nat -> dtype L) (b : nat -> dtype L) : Linear :=
  {| weight := {| cols := i;
                  data := map (fun j => map (w j) (seq 0 i)) (seq 0 o) |};
     bias := map b (seq 0 o) |}.

Record init_values : Type := mkInit {
  w1 : nat -> nat -> dtype L;  b1 : nat -> dtype L;
  w2 : nat -> nat -> dtype L;  b2 : nat -> dtype L;
  wg : nat -> nat -> dtype L;  bg : nat -> dtype L;
  wv : nat -> nat -> dtype L;  bv : nat -> dtype L
}.

Definition init (obs_dim hidden : nat) (v : init_values) : Net :=
  {| backbone :=
       [ MLinear (new_Linear obs_dim hidden (w1 v) (b1 v)); MReLU;
         MLinear (new_Linear hidden hidden (w2 v) (b2 v)); MReLU ];
     gamma_head := new_Linear hidden 1 (wg v) (bg v);
     value_head := new_Linear hidden 1 (wv v) (bv v) |}.

(** [DualHeadActorCritic.forward]; it only reads [self], so it is a
    function of the network and the batch here. *)
Definition forward (n : Net) (obs : tensor) : result (tensor * tensor) :=
  result_bind (sequential_forward (backbone n) obs) (fun z =>
    result_bind (linear_forward (gamma_head n) z) (fun g =>
      let gamma := tmap (sigmoid_entry L) g in
      result_bind (linear_forward (value_head n) z) (fun value =>
        Ok (gamma, value)))).

(** Row [i] of gamma and row [i] of V. *)
Definition row_of (i : nat) (p : tensor * tensor)
  : option (list (dtype L)) * option (list (dtype L)) :=
  (nth_error (data (fst p)) i, nth_error (data (snd p)) i).

(** Row [i] of each output on the batch [obs] is the output on row [i]
    taken as a batch of one row. *)
Definition rowwise_at (n : Net) (obs : tensor) (i : nat) (x : list (dtype L))
  : Prop :=
  exists gamma value g v,
    forward n obs = Ok (gamma, value)
    /\ nth_error (data gamma) i = Some g
    /\ nth_error (data value) i = Some v
    /\ forward n (row_batch obs x)
       = Ok ({| cols := 1; data := [g] |}, {| cols := 1; data := [v] |}).

(** What the forward pass computes on row [i] of a batch of [B] rows. *)
Definition hidden_row (l1 l2 : Linear) (B i : nat) (x : list (dtype L))
  : list (dtype L) :=
  map (relu_entry L)
      (linear_row l2 B i (map (relu_entry L) (linear_row l1 B i x))).

Definition gamma_row (l1 l2 lg : Linear) (B i : nat) (x : list (dtype L))
  : list (dtype L) :=
  map (sigmoid_entry L) (linear_row lg B i (hidden_row l1 l2 B i x)).

Definition value_row (l1 l2 lv : Linear) (B i : nat) (x : list (dtype L))
  : list (dtype L) :=
  linear_row lv B i (hidden_row l1 l2 B i x).

End Library.

Arguments mkTensor {L} cols data.
Arguments cols {L} t.
Arguments data {L} t.
Arguments rows {L} t.
Arguments tmap {L} f t.
Arguments row_batch {L} t x.
Arguments mkLinear {L} weight bias.
Arguments weight {L} l.
Arguments bias {L} l.
Arguments wf_linear {L} i o l.
Arguments linear_row {L} l B i x.
Arguments linear_out {L} l x.
Arguments linear_forward {L} l x.
Arguments MLinear {L} l.
Arguments MReLU {L}.
Arguments call {L} m x.
Arguments sequential_forward {L} ms x.
Arguments mkNet {L} backbone gamma_head value_head.
Arguments backbone {L} n.
Arguments gamma_head {L} n.
Arguments value_head {L} n.
Arguments wf_net {L} obs_dim hidden n.
Arguments new_Linear {L} i o w b.
Arguments mkInit {L} w1 b1 w2 b2 wg bg wv bv.
Arguments init {L} obs_dim hidden v.
Arguments forward {L} n obs.
Arguments row_of {L} i p.
Arguments rowwise_at {L} n obs i x.
Arguments hidden_row {L} l1 l2 B i x.
Arguments gamma_row {L} l1 l2 lg B i x.
Arguments value_row {L} l1 l2 lv B i x.

End Lib.

(** ** The library of exact arithmetic

    With this library [Lib.forward] is the forward pass of [Torch]
    ([forward_exact] below): every entry of a product is the exact inner
    product plus the bias, whatever the batch. *)

Definition exact_library : library :=
  {| dtype := R;
     linear_entry := fun _ _ _ x w b => dot x w + b;
     relu_entry := relu;
     sigmoid_entry := sigmoid |}.

Definition of_tensor (t : tensor) : Lib.tensor exact_library :=
  @Lib.mkTensor exact_library (cols t) (data t).

Definition of_Linear (l : Linear) : Lib.Linear exact_library :=
  @Lib.mkLinear exact_library (of_tensor (weight l)) (bias l).

Definition of_Module (m : Module_) : Lib.Module_ exact_library :=
  match m with
  | MLinear l => Lib.MLinear (of_Linear l)
  | MReLU => Lib.MReLU
  end.

Definition of_net (n : DualHeadActorCritic) : Lib.Net exact_library :=
  Lib.mkNet (map of_Module (backbone n))
            (of_Linear (gamma_head n)) (of_Linear (value_head n)).

(** ** A float32 library

    IEEE 754 binary32 values and operations, rounded to nearest even
    ([SpecFloat] with 24 bits of precision).  A matrix-product kernel
    multiplies entry by entry and adds the products up; kernels differ in
    the order of the additions.  The kernel here keeps [lanes] partial
    sums, product k going to partial sum k mod [lanes], and adds the
    partial sums up at the end: one lane is the plain loop, several lanes
    are a vectorised loop.  How many lanes the library uses for a batch
    of [B] rows is [lanes_of B]; the source does not say, so it is a
    parameter, and so is the float32 sigmoid. *)

Module Float32.

Definition f32 : Type := spec_float.

Definition add : f32 -> f32 -> f32 := SFadd 24%Z 128%Z.
Definition mul : f32 -> f32 -> f32 := SFmul 24%Z 128%Z.
Definition zero : f32 := S754_zero false.

(** The float32 nearest to m * 2^e. *)
Definition of_Z (m e : Z) : f32 := binary_normalize 24%Z 128%Z m e false.

Arguments of_Z (m e)%_Z.

Definition one : f32 := of_Z 1 0.

(** max(0, x); NaN passes. *)
Definition relu (x : f32) : f32 := if SFltb x zero then zero else x.

(** Left-to-right sum. *)
Definition sum (l : list f32) : f32 := fold_left add l zero.

(** The elements at positions r, r + n, r + 2n, ... *)
Definition lane (n r : nat) (l : list f32) : list f32 :=
  map snd
      (filter (fun kp => Nat.eqb (Nat.modulo (fst kp) n) r)
              (combine (seq 0 (length l)) l)).

Definition dot (lanes : nat) (x w : list f32) : f32 :=
  let products := map (fun xw => mul (fst xw) (snd xw)) (combine x w) in
  sum (map (fun r => sum (lane lanes r products)) (seq 0 lanes)).

Definition entry (lanes_of : nat -> nat)
           (B i j : nat) (x w : list f32) (b : f32) : f32 :=
  add (dot (lanes_of B) x w) b.

Definition lib (lanes_of : nat -> nat) (sigmoid_f32 : f32 -> f32) : library :=
  {| dtype := f32;
     linear_entry := entry lanes_of;
     relu_entry := relu;
     sigmoid_entry := sigmoid_f32 |}.

(** One way a library may pick its kernel by the shape of the batch: a
    one-row product goes to a vectorised kernel with 8 partial sums, a
    batched product to the plain loop. *)
Definition lanes_by_shape (B : nat) : nat := if Nat.eqb B 1 then 8%nat else 1%nat.

(** Values for a network and a batch: 24-bit integers spread over
    [-2^23, 2^23) by a linear congruence, scaled by a power of two. *)
Definition scatter (s j k : nat) : Z :=
  ((Z.of_nat s * 7919 + Z.of_nat j * 2654435761 + Z.of_nat k * 40503)
     mod 16777216 - 8388608)%Z.

(** Entries in [-1/4, 1/4). *)
Definition small (s j k : nat) : f32 := of_Z (scatter s j k) (-25).

(** obs_dim = 4 and hidden = 128. *)
Definition net (sigmoid_f32 : f32 -> f32)
  : Lib.Net (lib lanes_by_shape sigmoid_f32) :=
  @Lib.init (lib lanes_by_shape sigmoid_f32) 4 128
    (@Lib.mkInit (lib lanes_by_shape sigmoid_f32)
       (small 1) (small 2 0) (small 3) (small 4 0)
       (small 5) (small 6 0) (small 7) (small 8 0)).

(** Row [i] of the batch: entries in [-1, 1). *)
Definition obs_row (i : nat) : list f32 :=
  map (fun k => of_Z (scatter 9 i k) (-23)) (seq 0 4).

(** A batch of 64 rows. *)
Definition batch (sigmoid_f32 : f32 -> f32)
  : Lib.tensor (lib lanes_by_shape sigmoid_f32) :=
  @Lib.mkTensor (lib lanes_by_shape sigmoid_f32) 4 (map obs_row (seq 0 64)).

End Float32.

(** * Properties *)

(** ** Lists and sums *)

Lemma map_seq_nth {A B : Type} (f : A -> B) (d : A) (l : list A) :
  map f l = map (fun i => f (nth i l d)) (seq 0 (length l)).
Proof.
  induction l as [|a l IH]; simpl; [reflexivity|].
  f_equal. rewrite <- seq_shift, map_map. exact IH.
Qed.

Lemma map_ext_seq {B : Type} (f g : nat -> B) (s n : nat) :
  (forall i, (s <= i < s + n)%nat -> f i = g i) ->
  map f (seq s n) = map g (seq s n).
Proof.
  intros H. apply map_ext_in. intros i Hi. apply in_seq in Hi. auto.
Qed.

Lemma dot_sum_upto (x w : list R) :
  length x = length w ->
  dot x w
  = Reference.sum_upto (length x) (fun k => nth k x 0 * nth k w 0).
Proof.
  unfold Reference.sum_upto. revert w.
  induction x as [|a x IH]; intros [|b w] Hlen; simpl in *;
    try discriminate; [reflexivity|].
  f_equal. rewrite <- seq_shift, map_map. apply IH. lia.
Qed.

Lemma dot_zero_r (x w : list R) :
  Forall (fun v => v = 0) w -> dot x w = 0.
Proof.
  intros Hw. revert x.
  induction Hw as [|b w Hb _ IH]; intros [|a x]; simpl; try reflexivity.
  rewrite IH, Hb. lra.
Qed.

Lemma combine_map_seq {A B C : Type} (f : A * B -> C) (da : A) (db : B)
      (la : list A) (lb : list B) :
  length la = length lb ->
  map f (combine la lb)
  = map (fun j => f (nth j la da, nth j lb db)) (seq 0 (length la)).
Proof.
  revert lb. induction la as [|a la IH]; intros [|b lb] Hlen; simpl in *;
    try discriminate; [reflexivity|].
  f_equal. rewrite <- seq_shift, map_map. apply IH. lia.
Qed.

(** ** Activations *)

Lemma relu_cases (v : R) : relu v = if Rle_dec v 0 then 0 else v.
Proof.
  unfold relu, Rmax.
  destruct (Rle_dec 0 v), (Rle_dec v 0); lra.
Qed.

Lemma sigmoid_logistic (v : R) : sigmoid v = Reference.logistic v.
Proof. unfold sigmoid, Reference.logistic. lra. Qed.

(** ** Shapes through the layers *)

Lemma affine_row_length (i o : nat) (l : Linear) (x : list R) :
  wf_linear i o l -> length (affine_row l x) = o.
Proof.
  intros (_ & _ & Ho & Hb). unfold affine_row, out_features, rows in *.
  rewrite length_map, length_combine. lia.
Qed.

Lemma linear_out_wf (i o : nat) (l : Linear) (x : tensor) :
  wf_linear i o l -> wf_tensor (linear_out l x) /\ cols (linear_out l x) = o.
Proof.
  intros Hl. split.
  - unfold wf_tensor, linear_out; simpl. apply Forall_map, Forall_forall.
    intros r _. rewrite (affine_row_length i o l r Hl).
    symmetry. apply Hl.
  - apply Hl.
Qed.

Lemma tmap_wf (f : R -> R) (t : tensor) : wf_tensor t -> wf_tensor (tmap f t).
Proof.
  unfold wf_tensor, tmap; simpl. intros H. apply Forall_map.
  revert H. apply Forall_impl. intros r Hr. now rewrite length_map.
Qed.

Lemma linear_forward_ok (l : Linear) (x : tensor) :
  cols x = in_features l -> linear_forward l x = Ok (linear_out l x).
Proof.
  intros H. unfold linear_forward. now rewrite H, Nat.eqb_refl.
Qed.

Lemma linear_forward_mismatch (l : Linear) (x : tensor) :
  cols x <> in_features l -> linear_forward l x = Raise ShapeError.
Proof.
  intros H. unfold linear_forward.
  destruct (Nat.eqb_spec (cols x) (in_features l)); [contradiction|reflexivity].
Qed.

Lemma new_Linear_wf (i o : nat) (w : nat -> nat -> R) (b : nat -> R) :
  wf_linear i o (new_Linear i o w b).
Proof.
  unfold wf_linear, new_Linear, wf_tensor, in_features, out_features, rows;
    simpl.
  repeat split; rewrite ?length_map, ?length_seq; try reflexivity.
  apply Forall_map, Forall_forall. intros j _.
  now rewrite length_map, length_seq.
Qed.

Lemma init_wf (obs_dim hidden : nat) (v : init_values) :
  wf_net obs_dim hidden (init obs_dim hidden v).
Proof.
  unfold wf_net, init; simpl.
  eexists _, _. split; [reflexivity|].
  split; [|split; [|split]]; apply new_Linear_wf.
Qed.

Lemma nth_wf_row (t : tensor) (i : nat) :
  wf_tensor t -> (i < rows t)%nat -> length (nth i (data t) []) = cols t.
Proof.
  unfold wf_tensor, rows. intros Hwf Hi.
  rewrite Forall_forall in Hwf. apply Hwf, nth_In, Hi.
Qed.

(** ** The layers against their entry-by-entry reference *)

Lemma affine_row_reference (i o : nat) (l : Linear) (x : list R) :
  wf_linear i o l -> length x = i ->
  affine_row l x
  = map (fun j =>
           Reference.sum_upto i
             (fun k => nth k x 0 * Reference.entry (weight l) j k)
           + nth j (bias l) 0)
        (seq 0 o).
Proof.
  intros (Hwf & Hi & Ho & Hb) Hx.
  unfold affine_row, in_features, out_features, rows in *.
  rewrite (combine_map_seq _ [] 0) by lia. rewrite Ho.
  apply map_ext_seq. intros j Hj; simpl.
  f_equal. unfold Reference.entry.
  assert (Hrow : length (nth j (data (weight l)) []) = i).
  { rewrite <- Hi. apply nth_wf_row; [exact Hwf | unfold rows; lia]. }
  rewrite dot_sum_upto by lia. now rewrite Hx.
Qed.

Lemma linear_out_reference (i o : nat) (l : Linear) (x : tensor) :
  wf_linear i o l -> wf_tensor x -> cols x = i ->
  linear_out l x = Reference.linear_layer l x.
Proof.
  intros Hl Hx Hc.
  unfold linear_out, Reference.linear_layer, Reference.tabulate. f_equal.
  rewrite (map_seq_nth _ []). fold (rows x).
  apply map_ext_seq. intros r Hr; simpl.
  rewrite (affine_row_reference i o l); [| exact Hl |].
  - destruct Hl as (_ & -> & -> & _). reflexivity.
  - rewrite <- Hc. apply nth_wf_row; [assumption | lia].
Qed.

Lemma tmap_reference (f : R -> R) (t : tensor) :
  wf_tensor t -> tmap f t = Reference.elementwise f t.
Proof.
  intros Hwf. unfold tmap, Reference.elementwise, Reference.tabulate.
  f_equal. rewrite (map_seq_nth _ []). fold (rows t).
  apply map_ext_seq. intros r Hr; simpl.
  rewrite (map_seq_nth _ 0), nth_wf_row by (assumption || lia).
  reflexivity.
Qed.

Lemma tmap_ext (f g : R -> R) (t : tensor) :
  (forall v, f v = g v) -> tmap f t = tmap g t.
Proof.
  intros H. unfold tmap. f_equal.
  apply map_ext. intros r. now apply map_ext.
Qed.

Lemma relu_reference (t : tensor) :
  wf_tensor t -> tmap relu t = Reference.rectified_linear t.
Proof.
  intros Hwf. unfold Reference.rectified_linear.
  rewrite <- tmap_reference by assumption.
  apply tmap_ext, relu_cases.
Qed.

Lemma sigmoid_reference (t : tensor) :
  wf_tensor t -> tmap sigmoid t = Reference.elementwise Reference.logistic t.
Proof.
  intros Hwf. rewrite <- tmap_reference by assumption.
  apply tmap_ext, sigmoid_logistic.
Qed.

(** ** Running [forward] *)

(** [forward] leaves [self] as it is and returns what the three pure
    calls return, failing where the first of them fails. *)
Lemma forward_run (obs : tensor) (n : DualHeadActorCritic) :
  forward obs n
  = (result_bind (sequential_forward (backbone n) obs) (fun z =>
       result_bind (linear_forward (gamma_head n) z) (fun g =>
         result_bind (linear_forward (value_head n) z) (fun v =>
           Ok (tmap sigmoid g, v)))),
     n).
Proof.
  unfold forward, bind, getattr, lift, ret.
  destruct (sequential_forward (backbone n) obs) as [z|e]; simpl;
    [|reflexivity].
  destruct (linear_forward (gamma_head n) z) as [g|e]; simpl; [|reflexivity].
  destruct (linear_forward (value_head n) z) as [v|e]; reflexivity.
Qed.

(** An assignment, by contrast, is visible in the network afterwards. *)
Lemma setattr_after (new n : DualHeadActorCritic) : after (setattr new) n = new.
Proof. reflexivity. Qed.

(** The hidden representation computed by the backbone. *)
Lemma backbone_run (d h : nat) (l1 l2 : Linear) (obs : tensor) :
  wf_linear d h l1 -> wf_linear h h l2 -> cols obs = d ->
  sequential_forward [MLinear l1; MReLU; MLinear l2; MReLU] obs
  = Ok (tmap relu (linear_out l2 (tmap relu (linear_out l1 obs)))).
Proof.
  intros H1 H2 Hc. simpl.
  rewrite linear_forward_ok by (destruct H1 as (_ & -> & _); exact Hc).
  simpl. rewrite linear_forward_ok; [reflexivity|].
  simpl. destruct H1 as (_ & _ & -> & _), H2 as (_ & -> & _). reflexivity.
Qed.

Lemma forward_ok (d h : nat) (n : DualHeadActorCritic) (l1 l2 : Linear)
      (obs : tensor) :
  wf_net d h n ->
  backbone n = [MLinear l1; MReLU; MLinear l2; MReLU] ->
  cols obs = d ->
  forward obs n
  = (Ok (let z := tmap relu (linear_out l2 (tmap relu (linear_out l1 obs))) in
         (tmap sigmoid (linear_out (gamma_head n) z),
          linear_out (value_head n) z)),
     n).
Proof.
  intros (k1 & k2 & Hb & H1 & H2 & Hg & Hv) Hb' Hc.
  rewrite Hb in Hb'. injection Hb' as -> ->.
  rewrite forward_run, Hb, (backbone_run d h) by assumption.
  assert (Hz : cols (tmap relu (linear_out l2 (tmap relu (linear_out l1 obs))))
               = h) by (simpl; apply H2).
  simpl result_bind.
  rewrite !linear_forward_ok; [reflexivity| |].
  - rewrite Hz. symmetry. apply Hv.
  - rewrite Hz. symmetry. apply Hg.
Qed.

(** Row by row: the outputs of a well-shaped call are the images of the
    input rows under [gamma_row] and [value_row]. *)
Lemma forward_rows (d h : nat) (n : DualHeadActorCritic) (l1 l2 : Linear)
      (obs : tensor) :
  wf_net d h n ->
  backbone n = [MLinear l1; MReLU; MLinear l2; MReLU] ->
  cols obs = d ->
  returned (forward obs) n
  = Ok ({| cols := 1;
           data := map (gamma_row l1 l2 (gamma_head n)) (data obs) |},
        {| cols := 1;
           data := map (value_row l1 l2 (value_head n)) (data obs) |}).
Proof.
  intros Hn Hb Hc. unfold returned.
  rewrite (forward_ok d h n l1 l2) by assumption.
  destruct Hn as (_ & _ & _ & _ & _ & Hg & Hv).
  cbv zeta. simpl fst. unfold tmap, linear_out; simpl.
  destruct Hg as (_ & _ & -> & _), Hv as (_ & _ & -> & _).
  rewrite !map_map. reflexivity.
Qed.

(** ** The scalar range of the sigmoid, in exact arithmetic *)

Lemma sigmoid_bounds (v : R) : 0 < sigmoid v < 1.
Proof.
  unfold sigmoid. pose proof (exp_pos (- v)) as He.
  split.
  - apply Rdiv_lt_0_compat; lra.
  - apply (Rmult_lt_reg_r (1 + exp (- v))); [lra|].
    unfold Rdiv. rewrite Rmult_assoc, Rinv_l by lra. lra.
Qed.

(** ** Concrete runs *)

(** Equality of lists of real expressions, entry by entry. *)
Ltac entries :=
  repeat match goal with
         | |- @eq R _ _ => lra
         | |- @eq nat _ _ => reflexivity
         | |- _ :: _ = _ :: _ => apply f_equal2
         | |- @nil _ = @nil _ => reflexivity
         | |- mkTensor _ _ = mkTensor _ _ => apply f_equal2
         | |- (_, _) = (_, _) => apply f_equal2
         | |- Ok _ = Ok _ => apply f_equal
         end.

Lemma relu_nonneg (v : R) : 0 <= v -> relu v = v.
Proof. intros H. unfold relu. now apply Rmax_right. Qed.

Lemma relu_nonpos (v : R) : v <= 0 -> relu v = 0.
Proof. intros H. unfold relu. now apply Rmax_left. Qed.

Lemma sigmoid_0 : sigmoid 0 = 1 / 2.
Proof. unfold sigmoid. rewrite Ropp_0, exp_0. lra. Qed.

Example linear_forward_example :
  linear_forward
    {| weight := {| cols := 2; data := [[1; 2]; [3; 4]; [5; 6]] |};
       bias := [1 / 2; -1; 0] |}
    {| cols := 2; data := [[1; -2]] |}
  = Ok {| cols := 3; data := [[- 5 / 2; -6; -7]] |}.
Proof.
  unfold linear_forward, linear_out, affine_row; simpl.
  entries.
Qed.

Example linear_forward_wrong_width :
  linear_forward
    {| weight := {| cols := 2; data := [[1; 2]; [3; 4]; [5; 6]] |};
       bias := [1 / 2; -1; 0] |}
    {| cols := 3; data := [] |}
  = Raise ShapeError.
Proof. reflexivity. Qed.

(** Row [1]: 2*1+1 = 3, relu 3; -3+3 = 0, relu 0; gamma = sigmoid 0,
    V = 2*0+1.  Row [-4]: -8+1 = -7, relu 0; 0+3 = 3, relu 3;
    gamma = sigmoid 3, V = 2*3+1. *)
Example forward_tiny_net :
  forward {| cols := 1; data := [[1]; [-4]] |} tiny_net
  = (Ok ({| cols := 1; data := [[1 / 2]; [sigmoid 3]] |},
         {| cols := 1; data := [[1]; [7]] |}),
     tiny_net).
Proof.
  rewrite forward_run. f_equal. simpl.
  unfold tmap, linear_out, affine_row, out_features, rows; simpl.
  replace (relu (1 * 2 + 0 + 1)) with 3 by (rewrite relu_nonneg; lra).
  replace (relu (-4 * 2 + 0 + 1)) with 0 by (rewrite relu_nonpos; lra).
  replace (relu (3 * -1 + 0 + 3)) with 0 by (rewrite relu_nonneg; lra).
  replace (relu (0 * -1 + 0 + 3)) with 3 by (rewrite relu_nonneg; lra).
  replace (0 * 1 + 0 + 0) with 0 by lra.
  replace (3 * 1 + 0 + 0) with 3 by lra.
  rewrite sigmoid_0.
  entries.
Qed.

(** * The claims *)

(** C1.  On a batch of shape (B, obs_dim) the pair returned by [forward]
    is the reference composition: linear layer 1, rectified linear,
    linear layer 2, rectified linear give the hidden representation z;
    the first component is the logistic function applied entry by entry
    to the gamma-head layer on z, the second is the value-head layer on
    z.  It holds for every B, so for every B >= 1. *)
Theorem forward_refines_reference
        (d h : nat) (n : DualHeadActorCritic) (l1 l2 : Linear) (obs : tensor) :
  wf_net d h n ->
  backbone n = [MLinear l1; MReLU; MLinear l2; MReLU] ->
  wf_tensor obs -> cols obs = d ->
  returned (forward obs) n
  = Ok (Reference.forward_reference l1 l2 (gamma_head n) (value_head n) obs).
Proof.
  intros Hn Hb Hobs Hc. unfold returned.
  rewrite (forward_ok d h n l1 l2) by assumption.
  destruct Hn as (k1 & k2 & Hb' & H1 & H2 & Hg & Hv).
  rewrite Hb in Hb'. injection Hb' as <- <-.
  cbv zeta. simpl fst.
  unfold Reference.forward_reference, Reference.hidden_representation.
  (* layer 1 *)
  pose proof (linear_out_wf d h l1 obs H1) as [Wa Ca].
  rewrite <- (linear_out_reference d h l1 obs) by assumption.
  rewrite <- (relu_reference (linear_out l1 obs)) by assumption.
  (* layer 2 *)
  pose proof (tmap_wf relu _ Wa) as Wb.
  pose proof (linear_out_wf h h l2 (tmap relu (linear_out l1 obs)) H2)
    as [Wc Cc].
  rewrite <- (linear_out_reference h h l2) by assumption.
  rewrite <- (relu_reference (linear_out l2 _)) by assumption.
  (* heads *)
  pose proof (tmap_wf relu _ Wc) as Wz.
  set (z := tmap relu (linear_out l2 (tmap relu (linear_out l1 obs)))) in *.
  assert (Cz : cols z = h) by exact Cc.
  rewrite <- (linear_out_reference h 1 (gamma_head n) z) by assumption.
  rewrite <- (linear_out_reference h 1 (value_head n) z) by assumption.
  rewrite <- sigmoid_reference;
    [reflexivity | apply (linear_out_wf h 1), Hg].
Qed.

Lemma forward_refines_reference_witness :
  returned (forward sample_obs) sample_net
  = Ok (Reference.forward_reference
          (new_Linear 2 3 (w1 sample_values) (b1 sample_values))
          (new_Linear 3 3 (w2 sample_values) (b2 sample_values))
          (gamma_head sample_net) (value_head sample_net) sample_obs).
Proof.
  apply (forward_refines_reference 2 3 sample_net).
  - apply init_wf.
  - reflexivity.
  - repeat constructor.
  - reflexivity.
Defined.

(** C3.  On a batch of shape (B, obs_dim), [forward] returns a pair
    (gamma, V) of tensors of shape (B, 1): the output batch size is the
    input batch size.  It holds for every B, so for every B >= 1. *)
Theorem forward_output_shapes
        (d h : nat) (n : DualHeadActorCritic) (obs : tensor) :
  wf_net d h n -> cols obs = d ->
  exists gamma value,
    returned (forward obs) n = Ok (gamma, value)
    /\ shape gamma = (rows obs, 1%nat) /\ shape value = (rows obs, 1%nat)
    /\ wf_tensor gamma /\ wf_tensor value.
Proof.
  intros Hn Hc.
  pose proof Hn as (l1 & l2 & Hb & H1 & H2 & Hg & Hv).
  eexists _, _. split; [apply (forward_rows d h n l1 l2); assumption|].
  unfold shape, rows, wf_tensor; simpl. rewrite !length_map.
  repeat split; apply Forall_map, Forall_forall; intros x _.
  - unfold gamma_row. rewrite length_map. apply (affine_row_length h 1), Hg.
  - apply (affine_row_length h 1), Hv.
Qed.

Lemma forward_output_shapes_witness :
  exists gamma value,
    returned (forward sample_obs) sample_net = Ok (gamma, value)
    /\ shape gamma = (3%nat, 1%nat) /\ shape value = (3%nat, 1%nat)
    /\ wf_tensor gamma /\ wf_tensor value.
Proof.
  apply (forward_output_shapes 2 3 sample_net sample_obs).
  - apply init_wf.
  - reflexivity.
Defined.

(** C6.  A call of [forward] leaves every parameter of the network as it
    was: the network after the call is the network before it, whether the
    call returns or raises. *)
Theorem forward_preserves_parameters (obs : tensor) (n : DualHeadActorCritic) :
  after (forward obs) n = n.
Proof. unfold after. rewrite forward_run. reflexivity. Qed.

(** C7.  On an input whose last dimension is not [obs_dim], [forward]
    raises the shape error of the first linear layer and returns
    nothing. *)
Theorem forward_shape_mismatch
        (d h : nat) (n : DualHeadActorCritic) (obs : tensor) :
  wf_net d h n -> cols obs <> d ->
  returned (forward obs) n = Raise ShapeError.
Proof.
  intros (l1 & l2 & Hb & H1 & _) Hc. unfold returned.
  rewrite forward_run, Hb. simpl.
  rewrite linear_forward_mismatch; [reflexivity|].
  destruct H1 as (_ & -> & _). exact Hc.
Qed.

Lemma forward_shape_mismatch_witness :
  returned (forward {| cols := 3; data := [[1; 2; 3]] |}) sample_net
  = Raise ShapeError.
Proof.
  apply (forward_shape_mismatch 2 3).
  - apply init_wf.
  - simpl. discriminate.
Defined.

(** ** Zero weights *)

Lemma affine_row_zero (i o : nat) (l : Linear) (x : list R) :
  wf_linear i o l -> zero_weight l -> affine_row l x = bias l.
Proof.
  intros (_ & _ & Ho & Hb) Hz.
  unfold affine_row, zero_weight, out_features, rows in *.
  assert (Hlen : length (data (weight l)) = length (bias l)) by lia.
  clear Ho Hb. revert Hlen. generalize (bias l) as b.
  induction Hz as [|w W Hw _ IH]; intros [|c b] Hlen; simpl in *;
    try discriminate; [reflexivity|].
  rewrite (dot_zero_r x w Hw), IH by lia. f_equal. lra.
Qed.

Lemma zero_Linear_wf (i o : nat) (l : Linear) :
  wf_linear i o l -> wf_linear i o (zero_Linear l).
Proof.
  intros (Hwf & Hi & Ho & Hb).
  unfold wf_linear, zero_Linear, in_features, out_features, rows in *; simpl.
  rewrite length_map. repeat split; try assumption.
  now apply tmap_wf.
Qed.

Lemma zero_Linear_zero (l : Linear) : zero_weight (zero_Linear l).
Proof.
  unfold zero_weight, zero_Linear; simpl.
  apply Forall_map, Forall_forall. intros r _.
  apply Forall_map, Forall_forall. reflexivity.
Qed.

Lemma zero_all_weights_wf (d h : nat) (n : DualHeadActorCritic) :
  wf_net d h n -> wf_net d h (zero_all_weights n).
Proof.
  intros (l1 & l2 & Hb & H1 & H2 & Hg & Hv).
  exists (zero_Linear l1), (zero_Linear l2).
  unfold zero_all_weights; simpl. rewrite Hb.
  split; [reflexivity|].
  split; [|split; [|split]]; now apply zero_Linear_wf.
Qed.

Lemma zero_all_weights_zero (n : DualHeadActorCritic) :
  zero_weights (zero_all_weights n).
Proof.
  unfold zero_weights, zero_all_weights; simpl.
  split; [|split; apply zero_Linear_zero].
  intros l Hin. apply in_map_iff in Hin as ([k|] & Hk & _);
    simpl in Hk; [|discriminate].
  injection Hk as <-. apply zero_Linear_zero.
Qed.

(** C8.  When every weight matrix of the backbone and of the two heads
    is zero, each row of gamma is sigmoid of the gamma-head bias and each
    row of V is the value-head bias, whatever the input batch of shape
    (B, obs_dim). *)
Theorem forward_zero_weights
        (d h : nat) (n : DualHeadActorCritic) (obs : tensor) :
  wf_net d h n -> zero_weights n -> cols obs = d ->
  returned (forward obs) n
  = Ok ({| cols := 1;
           data := repeat (map sigmoid (bias (gamma_head n))) (rows obs) |},
        {| cols := 1;
           data := repeat (bias (value_head n)) (rows obs) |}).
Proof.
  intros Hn (Hzb & Hzg & Hzv) Hc.
  pose proof Hn as (l1 & l2 & Hb & H1 & H2 & Hg & Hv).
  rewrite (forward_rows d h n l1 l2) by assumption.
  unfold rows. rewrite <- !map_const.
  do 2 f_equal; f_equal; apply map_ext; intros x.
  - unfold gamma_row. now rewrite (affine_row_zero h 1).
  - unfold value_row. now rewrite (affine_row_zero h 1).
Qed.

Lemma forward_zero_weights_witness :
  returned (forward sample_obs) (zero_all_weights sample_net)
  = Ok ({| cols := 1;
           data := repeat
                     (map sigmoid (bias (gamma_head (zero_all_weights sample_net))))
                     (rows sample_obs) |},
        {| cols := 1;
           data := repeat (bias (value_head (zero_all_weights sample_net)))
                          (rows sample_obs) |}).
Proof.
  apply (forward_zero_weights 2 3).
  - apply zero_all_weights_wf, init_wf.
  - apply zero_all_weights_zero.
  - reflexivity.
Defined.

(** C9.  Head noninterference: on the same input, gamma does not depend
    on the parameters of the value-head and V does not depend on the
    parameters of the gamma-head.  Two networks with the same backbone
    and gamma-head return the same gamma; two with the same backbone and
    value-head return the same V. *)
Theorem head_noninterference
        (d h : nat) (b : list Module_) (g g' v v' : Linear) (obs : tensor) :
  wf_net d h (mkNet b g v) ->
  wf_net d h (mkNet b g v') ->
  wf_net d h (mkNet b g' v) ->
  result_map fst (returned (forward obs) (mkNet b g v))
  = result_map fst (returned (forward obs) (mkNet b g v'))
  /\ result_map snd (returned (forward obs) (mkNet b g v))
     = result_map snd (returned (forward obs) (mkNet b g' v)).
Proof.
  intros (_ & _ & _ & _ & _ & Hg & Hv) (_ & _ & _ & _ & _ & _ & Hv')
         (_ & _ & _ & _ & _ & Hg' & _).
  simpl in Hg, Hv, Hv', Hg'.
  unfold returned. rewrite !forward_run. simpl.
  destruct (sequential_forward b obs) as [z|e]; [|split; reflexivity].
  simpl. unfold linear_forward.
  destruct Hg as (_ & -> & _), Hg' as (_ & -> & _),
           Hv as (_ & -> & _), Hv' as (_ & -> & _).
  destruct (Nat.eqb (cols z) h); split; reflexivity.
Qed.

Lemma head_noninterference_witness :
  result_map fst (returned (forward sample_obs) sample_net)
  = result_map fst
      (returned (forward sample_obs)
         (mkNet (backbone sample_net) (gamma_head sample_net)
                (zero_Linear (value_head sample_net))))
  /\ result_map snd (returned (forward sample_obs) sample_net)
     = result_map snd
         (returned (forward sample_obs)
            (mkNet (backbone sample_net) (zero_Linear (gamma_head sample_net))
                   (value_head sample_net))).
Proof.
  apply (head_noninterference 2 3 (backbone sample_net)
           (gamma_head sample_net) (zero_Linear (gamma_head sample_net))
           (value_head sample_net) (zero_Linear (value_head sample_net))
           sample_obs).
  - apply init_wf.
  - eexists _, _. split; [reflexivity|].
    split; [|split; [|split]]; try apply new_Linear_wf.
    apply (zero_Linear_wf 3 1), new_Linear_wf.
  - eexists _, _. split; [reflexivity|].
    split; [|split; [|split]]; try apply new_Linear_wf.
    apply (zero_Linear_wf 3 1), new_Linear_wf.
Defined.

(** C10.  [forward] has no check that the batch is not empty: on an
    input of shape (0, obs_dim) it returns gamma and V, both of shape
    (0, 1). *)
Theorem forward_empty_batch (d h : nat) (n : DualHeadActorCritic) :
  wf_net d h n ->
  returned (forward {| cols := d; data := [] |}) n
  = Ok ({| cols := 1; data := [] |}, {| cols := 1; data := [] |}).
Proof.
  intros Hn. pose proof Hn as (l1 & l2 & Hb & _).
  now rewrite (forward_rows d h n l1 l2).
Qed.

Lemma forward_empty_batch_witness :
  returned (forward {| cols := 2; data := [] |}) sample_net
  = Ok ({| cols := 1; data := [] |}, {| cols := 1; data := [] |}).
Proof. apply (forward_empty_batch 2 3), init_wf. Defined.


(** * Further properties of the constructor and of [forward] *)

(** X1.  A network as [__init__] builds it, for any [obs_dim], [hidden]
    and initial values: on a batch of width [obs_dim] (of the dtype and
    device of the parameters, as every tensor here) [forward] returns
    gamma and V of shape (B, 1); on a batch of any other width it raises
    the shape error. *)
Theorem forward_on_constructed
        (obs_dim hidden : nat) (v : init_values) (obs : tensor) :
  (cols obs = obs_dim ->
   exists gamma value,
     returned (forward obs) (init obs_dim hidden v) = Ok (gamma, value)
     /\ shape gamma = (rows obs, 1%nat) /\ shape value = (rows obs, 1%nat))
  /\ (cols obs <> obs_dim ->
      returned (forward obs) (init obs_dim hidden v) = Raise ShapeError).
Proof.
  split; intros Hc.
  - eexists _, _. split.
    + eapply (forward_rows obs_dim hidden (init obs_dim hidden v));
        [apply init_wf | reflexivity | exact Hc].
    + unfold shape, rows; simpl. now rewrite !length_map.
  - unfold returned. rewrite forward_run. simpl.
    rewrite linear_forward_mismatch; [reflexivity|exact Hc].
Qed.

Lemma forward_on_constructed_witness :
  (exists gamma value,
     returned (forward sample_obs) sample_net = Ok (gamma, value)
     /\ shape gamma = (3%nat, 1%nat) /\ shape value = (3%nat, 1%nat))
  /\ returned (forward {| cols := 3; data := [[1; 2; 3]] |}) sample_net
     = Raise ShapeError.
Proof.
  split.
  - apply (proj1 (forward_on_constructed 2 3 sample_values sample_obs)).
    reflexivity.
  - apply (proj2 (forward_on_constructed 2 3 sample_values
                    {| cols := 3; data := [[1; 2; 3]] |})).
    simpl. discriminate.
Defined.

(** X2.  The hidden representation the backbone hands to the two heads
    has shape (B, hidden) and no negative entry: the backbone ends in a
    rectified-linear activation. *)
Theorem backbone_output_nonnegative
        (d h : nat) (n : DualHeadActorCritic) (obs : tensor) :
  wf_net d h n -> cols obs = d ->
  exists z,
    sequential_forward (backbone n) obs = Ok z
    /\ shape z = (rows obs, h) /\ wf_tensor z
    /\ all_entries (fun e => 0 <= e) z.
Proof.
  intros (l1 & l2 & Hb & H1 & H2 & _) Hc.
  rewrite Hb, (backbone_run d h) by assumption.
  eexists. split; [reflexivity|].
  destruct (linear_out_wf h h l2 (tmap relu (linear_out l1 obs)) H2)
    as [Wz Cz].
  split; [|split].
  - unfold shape, rows; simpl. rewrite !length_map.
    destruct H2 as (_ & _ & Ho & _). now rewrite <- Ho.
  - now apply tmap_wf.
  - unfold all_entries, tmap; simpl.
    apply Forall_map, Forall_forall. intros r _.
    apply Forall_map, Forall_forall. intros e _.
    apply Rmax_l.
Qed.

Lemma backbone_output_nonnegative_witness :
  exists z,
    sequential_forward (backbone sample_net) sample_obs = Ok z
    /\ shape z = (3%nat, 3%nat) /\ wf_tensor z
    /\ all_entries (fun e => 0 <= e) z.
Proof.
  apply (backbone_output_nonnegative 2 3 sample_net sample_obs).
  - apply init_wf.
  - reflexivity.
Defined.



(** * The forward pass over a library *)

(** ** Lists with positions *)

Lemma length_mapi_from {A B : Type} (s : nat) (f : nat -> A -> B) (l : list A) :
  length (mapi_from s f l) = length l.
Proof. revert s. induction l as [|a l IH]; intros s; simpl; auto. Qed.

Lemma map_mapi_from {A B C : Type} (g : B -> C) (s : nat)
      (f : nat -> A -> B) (l : list A) :
  map g (mapi_from s f l) = mapi_from s (fun i a => g (f i a)) l.
Proof.
  revert s. induction l as [|a l IH]; intros s; simpl; [reflexivity|].
  now rewrite IH.
Qed.

Lemma mapi_from_mapi_from {A B C : Type} (s : nat) (f : nat -> B -> C)
      (g : nat -> A -> B) (l : list A) :
  mapi_from s f (mapi_from s g l) = mapi_from s (fun i a => f i (g i a)) l.
Proof.
  revert s. induction l as [|a l IH]; intros s; simpl; [reflexivity|].
  now rewrite IH.
Qed.

Lemma mapi_from_ext {A B : Type} (s : nat) (f g : nat -> A -> B) (l : list A) :
  (forall i a, f i a = g i a) -> mapi_from s f l = mapi_from s g l.
Proof.
  intros H. revert s. induction l as [|a l IH]; intros s; simpl;
    [reflexivity|].
  now rewrite H, IH.
Qed.

Lemma mapi_from_map {A B : Type} (s : nat) (f : A -> B) (l : list A) :
  mapi_from s (fun _ => f) l = map f l.
Proof.
  revert s. induction l as [|a l IH]; intros s; simpl; [reflexivity|].
  now rewrite IH.
Qed.

Lemma nth_error_mapi_from {A B : Type} (s : nat) (f : nat -> A -> B)
      (l : list A) (i : nat) :
  nth_error (mapi_from s f l) i = option_map (f (s + i)%nat) (nth_error l i).
Proof.
  revert s i. induction l as [|a l IH]; intros s [|i]; simpl;
    try reflexivity.
  - now rewrite Nat.add_0_r.
  - rewrite IH. now rewrite Nat.add_succ_r.
Qed.

(** ** Running [Lib.forward] *)

Section LibraryFacts.

Variable L : library.

Lemma lib_linear_forward_ok (l : Lib.Linear L) (x : Lib.tensor L) :
  Lib.cols x = Lib.cols (Lib.weight l) ->
  Lib.linear_forward l x = Ok (Lib.linear_out l x).
Proof.
  intros H. unfold Lib.linear_forward. now rewrite H, Nat.eqb_refl.
Qed.

(** On a batch of the right width the outputs are, row by row, the
    images of the input rows; the image of a row may depend on its
    position and on the number of rows of the batch. *)
Lemma lib_forward_rows (d h : nat) (n : Lib.Net L) (l1 l2 : Lib.Linear L)
      (obs : Lib.tensor L) :
  Lib.wf_net d h n ->
  Lib.backbone n = [Lib.MLinear l1; Lib.MReLU; Lib.MLinear l2; Lib.MReLU] ->
  Lib.cols obs = d ->
  Lib.forward n obs
  = Ok (Lib.mkTensor 1
          (mapi (Lib.gamma_row l1 l2 (Lib.gamma_head n) (Lib.rows obs))
                (Lib.data obs)),
        Lib.mkTensor 1
          (mapi (Lib.value_row l1 l2 (Lib.value_head n) (Lib.rows obs))
                (Lib.data obs))).
Proof.
  intros (k1 & k2 & Hb & H1 & H2 & Hg & Hv) Hb' Hc.
  rewrite Hb in Hb'. injection Hb' as -> ->.
  destruct H1 as (_ & C1 & R1 & _), H2 as (_ & C2 & R2 & _),
           Hg as (_ & Cg & Rg & _), Hv as (_ & Cv & Rv & _).
  unfold Lib.forward. rewrite Hb. simpl.
  rewrite lib_linear_forward_ok by congruence. simpl.
  rewrite lib_linear_forward_ok by (simpl; congruence). simpl.
  rewrite !lib_linear_forward_ok by (simpl; congruence). simpl.
  unfold Lib.linear_out, Lib.tmap, Lib.rows in *; simpl.
  rewrite Rg, Rv. unfold mapi.
  repeat (rewrite length_map || rewrite length_mapi_from
          || rewrite map_mapi_from || rewrite mapi_from_mapi_from).
  reflexivity.
Qed.

End LibraryFacts.

(** ** The exact library is the exact model *)

Lemma of_linear_out (l : Linear) (x : tensor) :
  Lib.linear_out (of_Linear l) (of_tensor x) = of_tensor (linear_out l x).
Proof.
  unfold Lib.linear_out, linear_out, of_tensor, of_Linear; simpl.
  unfold Lib.rows, out_features, rows; simpl. f_equal.
  unfold mapi. rewrite <- (mapi_from_map 0 (affine_row l)).
  apply mapi_from_ext. intros i r.
  unfold Lib.linear_row, affine_row, mapi; simpl.
  apply mapi_from_map.
Qed.

Lemma of_linear_forward (l : Linear) (x : tensor) :
  Lib.linear_forward (of_Linear l) (of_tensor x)
  = result_map of_tensor (linear_forward l x).
Proof.
  unfold Lib.linear_forward, linear_forward, in_features; simpl.
  destruct (Nat.eqb (cols x) (cols (weight l))); [|reflexivity].
  simpl. now rewrite of_linear_out.
Qed.

Lemma of_sequential_forward (ms : list Module_) (x : tensor) :
  Lib.sequential_forward (map of_Module ms) (of_tensor x)
  = result_map of_tensor (sequential_forward ms x).
Proof.
  revert x. induction ms as [|m ms IH]; intros x; simpl; [reflexivity|].
  destruct m as [l|]; simpl.
  - rewrite of_linear_forward.
    destruct (linear_forward l x) as [y|e]; simpl; [apply IH|reflexivity].
  - apply (IH (tmap relu x)).
Qed.

(** With the library of exact arithmetic, [Lib.forward] returns what
    [forward] returns. *)
Lemma forward_exact (n : DualHeadActorCritic) (obs : tensor) :
  Lib.forward (of_net n) (of_tensor obs)
  = result_map (fun p => (of_tensor (fst p), of_tensor (snd p)))
               (returned (forward obs) n).
Proof.
  unfold returned. rewrite forward_run. simpl fst.
  unfold Lib.forward, of_net; simpl.
  rewrite of_sequential_forward.
  destruct (sequential_forward (backbone n) obs) as [z|e]; simpl;
    [|reflexivity].
  rewrite !of_linear_forward.
  destruct (linear_forward (gamma_head n) z) as [g|e]; simpl; [|reflexivity].
  destruct (linear_forward (value_head n) z) as [v|e]; reflexivity.
Qed.

Lemma of_Linear_wf (i o : nat) (l : Linear) :
  wf_linear i o l -> Lib.wf_linear i o (of_Linear l).
Proof.
  intros (Hwf & Hi & Ho & Hb).
  unfold Lib.wf_linear, of_Linear, Lib.rows, in_features, out_features,
    rows, wf_tensor in *; simpl.
  rewrite Hi in Hwf. auto.
Qed.

Lemma of_net_wf (d h : nat) (n : DualHeadActorCritic) :
  wf_net d h n -> Lib.wf_net d h (of_net n).
Proof.
  intros (l1 & l2 & Hb & H1 & H2 & Hg & Hv).
  exists (of_Linear l1), (of_Linear l2). simpl. rewrite Hb.
  split; [reflexivity|].
  split; [|split; [|split]]; now apply of_Linear_wf.
Qed.

(** ** Rows of a batch *)



(** ** The claim in float32 *)

Section RowsOfALibrary.

Variable L : library.

Lemma lib_new_Linear_wf (i o : nat) (w : nat -> nat -> dtype L)
      (b : nat -> dtype L) :
  Lib.wf_linear i o (Lib.new_Linear i o w b).
Proof.
  unfold Lib.wf_linear, Lib.new_Linear, Lib.rows; simpl.
  rewrite !length_map, !length_seq.
  split; [|auto].
  apply Forall_map, Forall_forall. intros j _.
  now rewrite length_map, length_seq.
Qed.

Lemma lib_init_wf (obs_dim hidden : nat) (v : Lib.init_values L) :
  Lib.wf_net obs_dim hidden (Lib.init obs_dim hidden v).
Proof.
  eexists _, _. split; [reflexivity|].
  split; [|split; [|split]]; apply lib_new_Linear_wf.
Qed.

(** Where row i of the batched call is the one-row call, the value head
    has computed the same row in both. *)
Lemma lib_rowwise_value (d h : nat) (n : Lib.Net L) (l1 l2 : Lib.Linear L)
      (obs : Lib.tensor L) (i : nat) (x : list (dtype L)) :
  Lib.wf_net d h n ->
  Lib.backbone n = [Lib.MLinear l1; Lib.MReLU; Lib.MLinear l2; Lib.MReLU] ->
  Lib.cols obs = d ->
  nth_error (Lib.data obs) i = Some x ->
  Lib.rowwise_at n obs i x ->
  Lib.value_row l1 l2 (Lib.value_head n) (Lib.rows obs) i x
  = Lib.value_row l1 l2 (Lib.value_head n) 1 0 x.
Proof.
  intros Hn Hb Hc Hx (gamma & value & g & v & H1 & _ & H3 & H4).
  rewrite (lib_forward_rows L d h n l1 l2) in H1 by assumption.
  injection H1 as _ <-.
  simpl in H3. unfold mapi in H3.
  rewrite nth_error_mapi_from, Hx in H3. simpl in H3.
  injection H3 as <-.
  rewrite (lib_forward_rows L d h n l1 l2) in H4 by assumption.
  injection H4 as _ H4. exact (eq_sym H4).
Qed.

End RowsOfALibrary.

(** The order of the additions shows in the last bits: the plain loop
    loses each 2^-24 when it adds it to 1; with 4 partial sums the 2^-24
    are added to each other first. *)
Example float32_order_of_accumulation :
  let x := repeat Float32.one 8 in
  let w := Float32.one :: repeat (Float32.of_Z 1 (-24)) 7 in
  Float32.dot 1 x w = Float32.of_Z 1 0
  /\ Float32.dot 4 x w = Float32.of_Z 8388611 (-23).
Proof. split; vm_compute; reflexivity. Qed.

(** Evaluates both sides of an equation [H] between float32 values. *)
Ltac run_both_sides H :=
  match type of H with
  | ?lhs = ?rhs =>
      let a := eval vm_compute in lhs in
      let b := eval vm_compute in rhs in
      let Ea := fresh "E" in
      let Eb := fresh "E" in
      assert (Ea : lhs = a) by (vm_cast_no_check (eq_refl a));
      assert (Eb : rhs = b) by (vm_cast_no_check (eq_refl b));
      rewrite Ea, Eb in H; clear Ea Eb
  end.



